(** * Account: login / logout / save / refresh against the OpenBB hub

    A shallow embedding of [openbb_core/app/static/account.py].  The
    in-process state reached through [self._base_app._command_runner]
    (the current [user_settings]), the default user-settings store of
    [UserService], the file [<openbb_directory>/.hub_session.json] and the
    directory that holds it are one record [Sys]; every observable side
    effect (hub calls, file accesses, log records) is appended to an event
    trace kept in the same record.  Python exceptions are the [Err] branch of
    a small state-and-error monad. *)

From Stdlib Require Import String List Bool NArith Lia.
Import ListNotations.
Open Scope string_scope.
Open Scope list_scope.

(** ** Data model *)

(** [openbb_core.app.model.hub.hub_session.HubSession] *)
Record HubSession := mkHubSession {
  access_token : string;
  token_type : string;
  user_uuid : string;
  email : string;
  username : string;
  primary_usage : string
}.

(** [UserSettings.profile]: the profile optionally owns a hub session. *)
Record Profile := mkProfile {
  hub_session : option HubSession
}.

(** [openbb_core.app.model.user_settings.UserSettings] *)
Record UserSettings := mkUserSettings {
  id : string;
  profile : Profile;
  credentials : list (string * option string);
  preferences : list (string * string)
}.

(** [updated.id = ...]: assignment of the [id] attribute. *)
Definition set_id (x : string) (u : UserSettings) : UserSettings :=
  {| id := x; profile := profile u; credentials := credentials u;
     preferences := preferences u |}.

(** A JSON document as produced by [json.load]. *)
#[local] Set Warnings "-register-all".
Inductive json : Type :=
| JNull
| JBool (b : bool)
| JNum (n : string)
| JStr (s : string)
| JArr (l : list json)
| JObj (l : list (string * json)).

(** Python exceptions that can leave the account methods. *)
Inductive exn : Type :=
| OpenBBError (msg : string)
| OpenBBErrorFrom (cause : exn)   (* raise OpenBBError(e) from e *)
| JSONDecodeError
| ValidationError                 (* the HubSession constructor rejected the dict *)
| FileNotFoundError
| HubError (msg : string).

Inductive result (A : Type) : Type :=
| Ok (a : A)
| Err (e : exn).
Arguments Ok {A} a.
Arguments Err {A} e.

(** The record handed to [LoggingService.log]. *)
Record log_record := mkLogRecord {
  route : string;
  func_name : string;
  kwargs : list (string * string);
  logged_settings : UserSettings;
  exec_info : option exn
}.

(** Observable effects, in the order they happen. *)
Inductive event : Type :=
| EvHubService (s : option HubSession)  (* HubService(...) constructed *)
| EvConnect                             (* hs.connect(email, password, pat) *)
| EvPull                                (* hs.pull() *)
| EvPush (u : UserSettings)             (* hs.push(u) *)
| EvDisconnect                          (* hs.disconnect() *)
| EvSessionExists                       (* session_file.exists() *)
| EvSessionRead                         (* open(session_file) *)
| EvMkdir                               (* directory created *)
| EvSessionFile (c : option string)     (* session file content changed *)
| EvReadDefault                         (* UserService.read_default_user_settings() *)
| EvWriteDefault (u : UserSettings)     (* UserService.write_default_user_settings(u) *)
| EvUpdateDefault                       (* UserService.update_default(...) *)
| EvLog (r : log_record).               (* LoggingService.log(...) *)

Definition is_remote (e : event) : bool :=
  match e with
  | EvHubService _ | EvConnect | EvPull | EvPush _ | EvDisconnect => true
  | _ => false
  end.

Definition is_log (e : event) : bool :=
  match e with EvLog _ => true | _ => false end.

Definition is_session_file_read (e : event) : bool :=
  match e with EvSessionExists | EvSessionRead => true | _ => false end.

(** The whole state an account call can touch. *)
Record Sys := mkSys {
  user_settings : UserSettings;     (* self._base_app._command_runner.user_settings *)
  default_settings : UserSettings;  (* the default user-settings store *)
  session_file : option string;     (* .hub_session.json, None when absent *)
  dir_exists : bool;                (* openbb_directory exists *)
  parent_exists : bool;             (* its parent exists *)
  events : list event
}.

Definition set_user_settings_sys (u : UserSettings) (s : Sys) : Sys :=
  mkSys u (default_settings s) (session_file s) (dir_exists s) (parent_exists s) (events s).
Definition set_default_sys (u : UserSettings) (s : Sys) : Sys :=
  mkSys (user_settings s) u (session_file s) (dir_exists s) (parent_exists s) (events s).
Definition set_session_file_sys (c : option string) (s : Sys) : Sys :=
  mkSys (user_settings s) (default_settings s) c (dir_exists s) (parent_exists s) (events s).
Definition set_dir_exists_sys (b : bool) (s : Sys) : Sys :=
  mkSys (user_settings s) (default_settings s) (session_file s) b (parent_exists s) (events s).
Definition add_event_sys (e : event) (s : Sys) : Sys :=
  mkSys (user_settings s) (default_settings s) (session_file s) (dir_exists s)
    (parent_exists s) (events s ++ [e]).

(** ** State and exception monad *)

Definition M (A : Type) : Type := Sys -> result A * Sys.

Definition ret {A} (a : A) : M A := fun s => (Ok a, s).

Definition bind {A B} (m : M A) (k : A -> M B) : M B :=
  fun s => match m s with
           | (Ok a, s') => k a s'
           | (Err e, s') => (Err e, s')
           end.

Notation "x <- m ;; k" := (bind m (fun x => k))
  (at level 61, m at next level, right associativity).
Notation "m ;; k" := (bind m (fun _ => k))
  (at level 61, right associativity).

Definition raise {A} (e : exn) : M A := fun s => (Err e, s).
Definition get : M Sys := fun s => (Ok s, s).
Definition modify (f : Sys -> Sys) : M unit := fun s => (Ok tt, f s).
Definition emit (e : event) : M unit := modify (add_event_sys e).
Definition lift {A} (r : result A) : M A := fun s => (r, s).

(** [try: body except Exception as e: handler(e)] *)
Definition try_except {A} (body : M A) (handler : exn -> M A) : M A :=
  fun s => match body s with
           | (Err e, s') => handler e s'
           | r => r
           end.

(** [try: body finally: fin(exc_info())]: the clean-up runs on both exits;
    an exception it raises replaces the pending outcome. *)
Definition try_finally {A} (body : M A) (fin : option exn -> M unit) : M A :=
  fun s => match body s with
           | (Ok a, s1) =>
               match fin None s1 with
               | (Ok _, s2) => (Ok a, s2)
               | (Err e', s2) => (Err e', s2)
               end
           | (Err e, s1) =>
               match fin (Some e) s1 with
               | (Ok _, s2) => (Err e, s2)
               | (Err e', s2) => (Err e', s2)
               end
           end.

(** ** Collaborators outside [account.py]

    [HubService], [UserService], the HubSession validator and [json] are
    not part of this file; the account code only calls them.  They are the
    fields of a class, and everything below is stated for every instance. *)
Class Env := {
  (** [json.load(f)] on the text of the session file; [None] when the text
      is not JSON ([json.JSONDecodeError]). *)
  json_load : string -> option json;
  (** [HubSession( **session_dict)]; [None] when pydantic rejects it. *)
  hub_session_of_dict : json -> option HubSession;
  (** the successive [f.write] calls of
      [json.dump(hs.session.model_dump(mode="json"), f, indent=4)] *)
  session_dump_chunks : HubSession -> list string;
  (** [HubService.connect(email, password, pat)] on a fresh service *)
  hub_connect : option string -> option string -> option string -> result HubSession;
  (** [HubService.pull()] for a service holding the given session *)
  hub_pull : option HubSession -> result UserSettings;
  (** [HubService.push(settings)] *)
  hub_push : option HubSession -> UserSettings -> result unit;
  (** [UserService.update_default(incoming)]: the merge of the stored
      default settings (first argument) with [incoming] *)
  update_default_merge : UserSettings -> UserSettings -> UserSettings
}.

Section Account.
Context {E : Env}.

(** *** Primitive effects *)

Definition current_settings : M UserSettings :=
  s <- get ;; ret (user_settings s).

(** [self._base_app._command_runner.user_settings = u] *)
Definition install (u : UserSettings) : M unit := modify (set_user_settings_sys u).

(** [UserService.read_default_user_settings()] *)
Definition read_default_user_settings : M UserSettings :=
  emit EvReadDefault ;; s <- get ;; ret (default_settings s).

(** [UserService.write_default_user_settings(u)] *)
Definition write_default_user_settings (u : UserSettings) : M unit :=
  emit (EvWriteDefault u) ;; modify (set_default_sys u).

(** [UserService.update_default(incoming)] *)
Definition update_default (incoming : UserSettings) : M UserSettings :=
  emit EvUpdateDefault ;; s <- get ;;
  ret (update_default_merge (default_settings s) incoming).

(** [session_file.exists()] *)
Definition session_file_exists : M bool :=
  emit EvSessionExists ;; s <- get ;;
  ret (match session_file s with Some _ => true | None => false end).

(** [with open(session_file) as f: session_dict = json.load(f)] *)
Definition load_session_file : M json :=
  emit EvSessionRead ;; s <- get ;;
  match session_file s with
  | None => raise FileNotFoundError
  | Some c =>
      match json_load c with
      | Some j => ret j
      | None => raise JSONDecodeError
      end
  end.

(** [HubSession( **session_dict)] *)
Definition make_hub_session (d : json) : M HubSession :=
  match hub_session_of_dict d with
  | Some h => ret h
  | None => raise ValidationError
  end.

(** A [HubService] object is modelled by the session it holds
    ([hs.session]). *)
Definition HubService_new (s : option HubSession) : M (option HubSession) :=
  emit (EvHubService s) ;; ret s.

(** [hs.connect(email, password, pat)]: returns the service with its new
    session. *)
Definition hs_connect (hs : option HubSession) (email password pat : option string)
  : M (option HubSession) :=
  emit EvConnect ;; s <- lift (hub_connect email password pat) ;; ret (Some s).

Definition hs_pull (hs : option HubSession) : M UserSettings :=
  emit EvPull ;; lift (hub_pull hs).

Definition hs_push (hs : option HubSession) (u : UserSettings) : M unit :=
  emit (EvPush u) ;; lift (hub_push hs u).

(** Modelled from the spec: [HubService.disconnect] is not in this file;
    the spec (4.2) describes it as a best-effort, idempotent invalidation of
    the live session, with no failure mode, so it records the call and
    returns. *)
Definition hs_disconnect (hs : option HubSession) : M unit :=
  emit EvDisconnect.

(** Modelled from the spec: [LoggingService.log] is not in this file; the
    spec's audit boundary [record(route, args, outcome, errorInfo)] is an
    infallible append. *)
Definition ls_log (r : log_record) : M unit := emit (EvLog r).

(** The session file takes new content. *)
Definition write_session_file (c : option string) : M unit :=
  modify (set_session_file_sys c) ;; emit (EvSessionFile c).

(** [Path(self._openbb_directory).mkdir(parents=False, exist_ok=True)] *)
Definition mkdir_exist_ok : M unit :=
  s <- get ;;
  if dir_exists s then ret tt
  else if parent_exists s then emit EvMkdir ;; modify (set_dir_exists_sys true)
  else raise FileNotFoundError.

(** [open(session_file, "w")]: creates or truncates the file. *)
Definition open_for_write : M unit :=
  s <- get ;;
  if dir_exists s then write_session_file (Some "") else raise FileNotFoundError.

(** [f.write(chunk)] for each chunk, in order. *)
Fixpoint write_chunks (cs : list string) : M unit :=
  match cs with
  | [] => ret tt
  | c :: cs' =>
      s <- get ;;
      let old := match session_file s with Some o => o | None => "" end in
      write_session_file (Some (old ++ c)%string) ;; write_chunks cs'
  end.

(** [json.dump(hs.session.model_dump(mode="json"), f, indent=4)] *)
Definition json_dump (h : HubSession) : M unit := write_chunks (session_dump_chunks h).

(** [session_file.unlink()] *)
Definition unlink_session_file : M unit := write_session_file None.

(** [if return_settings: return ...user_settings; return None] *)
Definition return_user_settings (return_settings : bool) : M (option UserSettings) :=
  if return_settings then u <- current_settings ;; ret (Some u) else ret None.

(** *** [Account._log_account_command] *)
Definition _log_account_command {A} (name : string) (func : M A) : M A :=
  try_finally
    (try_except func (fun e => raise (OpenBBErrorFrom e)))
    (fun ei =>
       u <- current_settings ;;
       ls_log {| route := ("/account/" ++ name)%string; func_name := name; kwargs := [];
                 logged_settings := u; exec_info := ei |}).

(** *** [Account._create_hub_service] *)
Definition _create_hub_service (email password pat : option string)
  : M (option HubSession) :=
  match email, password, pat with
  | None, None, None =>
      ex <- session_file_exists ;;
      if negb ex then raise (OpenBBError "Session not found.")
      else
        session_dict <- load_session_file ;;
        hub_session <- make_hub_session session_dict ;;
        HubService_new (Some hub_session)
  | _, _, _ =>
      hs <- HubService_new None ;;
      hs_connect hs email password pat
  end.

(** *** [Account.login] *)
Definition login_body (email password pat : option string)
  (remember_me return_settings : bool) : M (option UserSettings) :=
  hs <- _create_hub_service email password pat ;;
  incoming <- hs_pull hs ;;
  updated <- update_default incoming ;;
  install updated ;;
  (if remember_me then
     mkdir_exist_ok ;;
     open_for_write ;;
     match hs with
     | None => raise (OpenBBError "Not connected to hub.")
     | Some h => json_dump h
     end
   else ret tt) ;;
  return_user_settings return_settings.

Definition login (email password pat : option string) (remember_me return_settings : bool)
  : M (option UserSettings) :=
  _log_account_command "login" (login_body email password pat remember_me return_settings).

(** *** [Account.save] *)
Definition save_body (return_settings : bool) : M (option UserSettings) :=
  cur <- current_settings ;;
  (match hub_session (profile cur) with
   | None => write_default_user_settings cur
   | Some h =>
       hs <- HubService_new (Some h) ;;
       cur' <- current_settings ;;
       hs_push hs cur'
   end) ;;
  return_user_settings return_settings.

Definition save (return_settings : bool) : M (option UserSettings) :=
  _log_account_command "save" (save_body return_settings).

(** *** [Account.refresh] *)
Definition refresh_body (return_settings : bool) : M (option UserSettings) :=
  cur <- current_settings ;;
  (match hub_session (profile cur) with
   | None => d <- read_default_user_settings ;; install d
   | Some h =>
       hs <- HubService_new (Some h) ;;
       incoming <- hs_pull hs ;;
       updated <- update_default incoming ;;
       cur' <- current_settings ;;
       install (set_id (id cur') updated)
   end) ;;
  return_user_settings return_settings.

Definition refresh (return_settings : bool) : M (option UserSettings) :=
  _log_account_command "refresh" (refresh_body return_settings).

(** *** [Account.logout] *)
Definition logout_body (return_settings : bool) : M (option UserSettings) :=
  cur <- current_settings ;;
  match hub_session (profile cur) with
  | None => raise (OpenBBError "Not connected to hub.")
  | Some h =>
      hs <- HubService_new (Some h) ;;
      hs_disconnect hs ;;
      ex <- session_file_exists ;;
      (if ex then unlink_session_file else ret tt) ;;
      d <- read_default_user_settings ;;
      install d ;;
      return_user_settings return_settings
  end.

Definition logout (return_settings : bool) : M (option UserSettings) :=
  _log_account_command "logout" (logout_body return_settings).

End Account.

(** ** Concrete collaborators, used to run the model on examples *)

(** Modelled from the spec: [UserService.update_default] is not in this
    file; the spec's [mergeIncoming] (4.3) returns a settings object equal
    to the pulled [remote] settings: remote is authoritative. *)
Definition merge_incoming (defaults remote : UserSettings) : UserSettings := remote.

Definition sample_session (tok : string) : HubSession :=
  mkHubSession tok "bearer" "uuid-1" "user@example.com" "user" "personal".

Definition sample_remote (h : HubSession) : UserSettings :=
  mkUserSettings "Y" (mkProfile (Some h)) [("fmp_api_key", Some "k")]
    [("chart_style", "dark")].

Definition sample_env : Env := {|
  json_load c := if String.eqb c "not json" then None else Some (JStr c);
  hub_session_of_dict d :=
    match d with
    | JStr t => if String.eqb t "[]" then None else Some (sample_session t)
    | _ => None
    end;
  session_dump_chunks h := ["{"; access_token h; "}"];
  hub_connect e p t :=
    match t with
    | Some tok => Ok (sample_session tok)
    | None =>
        match e, p with
        | Some _, Some _ => Ok (sample_session "pw")
        | _, _ => Err (OpenBBError "Please provide 'email' and 'password' or 'pat'")
        end
    end;
  hub_pull hs :=
    match hs with
    | Some h => Ok (sample_remote h)
    | None => Err (OpenBBError "No session found.")
    end;
  hub_push hs u :=
    match hs with
    | Some _ => Ok tt
    | None => Err (OpenBBError "No session found.")
    end;
  update_default_merge := merge_incoming
|}.

Definition local_defaults : UserSettings := mkUserSettings "X0" (mkProfile None) [] [].

Definition connected_settings : UserSettings :=
  mkUserSettings "X" (mkProfile (Some (sample_session "T"))) [] [].

(** A connected process with a stale session file on disk. *)
Definition sys_connected : Sys := mkSys connected_settings local_defaults (Some "old") true true [].

(** An anonymous process with no session file. *)
Definition sys_anonymous : Sys := mkSys local_defaults local_defaults None true true [].

(** An anonymous process whose session file does not hold JSON. *)
Definition sys_corrupt : Sys :=
  mkSys local_defaults local_defaults (Some "not json") true true [].

(** An anonymous process whose session directory and its parent are
    missing. *)
Definition sys_no_dir : Sys := mkSys local_defaults local_defaults None false false [].

(** Like [sample_env], with a [json.dump] that writes the bare token, so
    that the text written for [sample_session t] loads back as it. *)
Definition roundtrip_env : Env := {|
  json_load := @json_load sample_env;
  hub_session_of_dict := @hub_session_of_dict sample_env;
  session_dump_chunks h := [access_token h];
  hub_connect := @hub_connect sample_env;
  hub_pull := @hub_pull sample_env;
  hub_push := @hub_push sample_env;
  update_default_merge := @update_default_merge sample_env
|}.

(** ** Observations on runs *)

Definition boundary_result {A} (r : result A) : result A :=
  match r with Ok a => Ok a | Err e => Err (OpenBBErrorFrom e) end.

Definition exc_of {A} (r : result A) : option exn :=
  match r with Ok _ => None | Err e => Some e end.

Definition audit_record (name : string) (s1 : Sys) (ei : option exn) : log_record :=
  {| route := ("/account/" ++ name)%string; func_name := name; kwargs := [];
     logged_settings := user_settings s1; exec_info := ei |}.

(** The contract of the operation boundary: the run of [op] from [s] is the
    run of its body followed by exactly one log record naming the route,
    with empty [kwargs]; a failure [e] of the body reaches the caller as
    [OpenBBError(e) from e], after the record. *)
Definition boundary_contract {A} (name : string) (body : M A) (s : Sys)
  (out : result A * Sys) : Prop :=
  let '(r0, s1) := body s in
  exists new,
    events s1 = events s ++ new /\
    forallb (fun e => negb (is_log e)) new = true /\
    out = (boundary_result r0,
           add_event_sys (EvLog (audit_record name s1 (exc_of (boundary_result r0)))) s1).

(** [m] only appends events satisfying [P]. *)
Definition keeps (P : event -> bool) {A} (m : M A) : Prop :=
  forall s, exists new, events (snd (m s)) = events s ++ new /\ forallb P new = true.

(** The contents the session file takes, in order. *)
Definition file_states (evs : list event) : list (option string) :=
  flat_map (fun e => match e with EvSessionFile c => [c] | _ => [] end) evs.

Definition option_string_eqb (a b : option string) : bool :=
  match a, b with
  | Some x, Some y => String.eqb x y
  | None, None => true
  | _, _ => false
  end.

(** Every content the file takes is the old one or the new one. *)
Definition only_old_or_new (old new : option string) (evs : list event) : bool :=
  forallb (fun c => option_string_eqb c old || option_string_eqb c new) (file_states evs).

(** The contents taken by the file while [cs] are appended to [acc]. *)
Fixpoint chunk_prefixes (acc : string) (cs : list string) : list (option string) :=
  match cs with
  | [] => []
  | c :: cs' => Some (acc ++ c)%string :: chunk_prefixes (acc ++ c)%string cs'
  end.

(** The file content after [cs] are appended to [acc]. *)
Fixpoint appended (acc : string) (cs : list string) : string :=
  match cs with
  | [] => acc
  | c :: cs' => appended (acc ++ c)%string cs'
  end.

Example login_pat_remember_runs :
  let '(r, s') := @login sample_env None None (Some "T") true true sys_anonymous in
  r = Ok (Some (sample_remote (sample_session "T"))) /\ session_file s' = Some "{T}".
Proof. split; reflexivity. Qed.

Example logout_then_logout_runs :
  fst (logout false (snd (logout false sys_connected)))
  = Err (OpenBBErrorFrom (OpenBBError "Not connected to hub.")).
Proof. reflexivity. Qed.

(** [return_settings] decides only what the call returns: the final state is
    the same for both values, and with [True] a success returns the current
    settings after the call. *)
Definition flag_only_in_result (op : bool -> M (option UserSettings)) (s : Sys) : Prop :=
  snd (op true s) = snd (op false s) /\
  match fst (op false s) with
  | Ok r => r = None /\ fst (op true s) = Ok (Some (user_settings (snd (op true s))))
  | Err e => fst (op true s) = Err e
  end.

(** Events that would carry local settings away or fetch remote ones. *)
Definition no_settings_transfer (e : event) : bool :=
  match e with
  | EvConnect | EvPull | EvPush _ | EvWriteDefault _ => false
  | _ => true
  end.

(** ** [openbb_core/provider/standard_models/institutional_ownership.py]

    The two [upper_symbol] field validators.  A Python [str] is its list of
    Unicode code points.  [str.upper] maps each code point to its full
    uppercase mapping and concatenates the results: [a]..[z] become
    [A]..[Z], other ASCII code points stay as they are, and the mapping of
    code points from 128 up (Unicode's table, e.g. U+00DF to "SS") is the
    section variable [non_ascii_upper]. *)
Module InstitutionalOwnership.
Section Upper.
Variable non_ascii_upper : N -> list N.

Definition pystr : Type := list N.

Definition comma : N := 44.

(** [str.upper] on one code point *)
Definition upper_cp (c : N) : list N :=
  if (97 <=? c)%N && (c <=? 122)%N then [(c - 32)%N]
  else if (c <? 128)%N then [c]
  else non_ascii_upper c.

(** [v.upper()] *)
Definition py_upper (v : pystr) : pystr := flat_map upper_cp v.

(** [sep.join(l)] *)
Fixpoint py_join (sep : pystr) (l : list pystr) : pystr :=
  match l with
  | [] => []
  | [x] => x
  | x :: xs => x ++ sep ++ py_join sep xs
  end.

(** The value a [mode="before"] validator of [symbol] receives:
    [Union[str, List[str], Set[str]]]; a set is given by the order in which
    [list(v)] enumerates it. *)
Inductive symbol_input : Type :=
| SymStr (v : pystr)
| SymList (l : list pystr)
| SymSet (l : list pystr).

(** [InstitutionalOwnershipQueryParams.upper_symbol] *)
Definition query_upper_symbol (v : pystr) : pystr := py_upper v.

(** [InstitutionalOwnershipData.upper_symbol] *)
Definition data_upper_symbol (v : symbol_input) : pystr :=
  match v with
  | SymStr s => py_upper s
  | SymList l => py_join [comma] (map py_upper l)
  | SymSet l => py_join [comma] (map py_upper l)
  end.

End Upper.

(** Python's [v.split(",")], to read the joined symbols back. *)
Fixpoint py_split_comma (v : pystr) : list pystr :=
  match v with
  | [] => [[]]
  | c :: r =>
      let rest := py_split_comma r in
      if (c =? comma)%N then [] :: rest
      else match rest with
           | f :: fs => (c :: f) :: fs
           | [] => [[c]]
           end
  end.

(** Identity on code points from 128 up: enough for the examples below,
    which are ASCII. *)
Definition ascii_only_upper (c : N) : list N := [c].

(** "aapl", "msft" *)
Definition sym_aapl : pystr := [97; 97; 112; 108]%N.
Definition sym_msft : pystr := [109; 115; 102; 116]%N.

(** [str.upper] on one ASCII code point. *)
Definition upper_ascii_char (c : N) : N :=
  if (97 <=? c)%N && (c <=? 122)%N then (c - 32)%N else c.

End InstitutionalOwnership.

(** ** Proofs *)

Section Proofs.
Context {E : Env}.

(** *** The operation boundary *)

Lemma log_account_command_run {A} (name : string) (f : M A) (s : Sys) :
  _log_account_command name f s =
  let '(r, s1) := f s in
  (boundary_result r,
   add_event_sys (EvLog (audit_record name s1 (exc_of (boundary_result r)))) s1).
Proof.
  unfold _log_account_command, try_finally, try_except.
  destruct (f s) as [[a|e] s1]; reflexivity.
Qed.

(** *** Effects that only append events of a given kind *)

Lemma keeps_ret P {A} (a : A) : keeps P (ret a).
Proof. intro s. exists []. rewrite app_nil_r. auto. Qed.

Lemma keeps_raise P {A} (e : exn) : keeps P (@raise A e).
Proof. intro s. exists []. rewrite app_nil_r. auto. Qed.

Lemma keeps_get P : keeps P get.
Proof. intro s. exists []. rewrite app_nil_r. auto. Qed.

Lemma keeps_lift P {A} (r : result A) : keeps P (lift r).
Proof. intro s. exists []. rewrite app_nil_r. auto. Qed.

Lemma keeps_modify P (f : Sys -> Sys) :
  (forall s, events (f s) = events s) -> keeps P (modify f).
Proof. intros Hf s. exists []. simpl. rewrite Hf, app_nil_r. auto. Qed.

Lemma keeps_emit P (e : event) : P e = true -> keeps P (emit e).
Proof. intros He s. exists [e]. simpl. rewrite He. auto. Qed.

Lemma keeps_bind P {A B} (m : M A) (k : A -> M B) :
  keeps P m -> (forall a, keeps P (k a)) -> keeps P (bind m k).
Proof.
  intros Hm Hk s. unfold bind.
  destruct (Hm s) as [n1 [H1 F1]].
  destruct (m s) as [[a|e] s'] eqn:Heq; simpl in H1.
  - destruct (Hk a s') as [n2 [H2 F2]]. exists (n1 ++ n2).
    rewrite H2, H1, app_assoc, forallb_app, F1, F2. auto.
  - exists n1. simpl. auto.
Qed.

Lemma events_set_user_settings u s : events (set_user_settings_sys u s) = events s.
Proof. reflexivity. Qed.
Lemma events_set_default u s : events (set_default_sys u s) = events s.
Proof. reflexivity. Qed.
Lemma events_set_session_file c s : events (set_session_file_sys c s) = events s.
Proof. reflexivity. Qed.
Lemma events_set_dir_exists b s : events (set_dir_exists_sys b s) = events s.
Proof. reflexivity. Qed.

Create HintDb keeps_db.
#[local] Hint Resolve keeps_ret keeps_raise keeps_get keeps_lift : keeps_db.
#[local] Hint Resolve events_set_user_settings events_set_default
  events_set_session_file events_set_dir_exists : keeps_db.

(** Decompose a monadic program into its primitive effects. *)
Ltac keeps_step :=
  match goal with
  | |- keeps _ (bind _ _) => apply keeps_bind; [| intro; cbv beta]
  | |- keeps _ (emit _) => apply keeps_emit; reflexivity
  | |- keeps _ (modify _) => apply keeps_modify; auto with keeps_db
  | |- keeps _ (if ?b then _ else _) => destruct b
  | |- keeps _ (match ?x with _ => _ end) => destruct x
  | |- keeps _ _ => solve [auto with keeps_db]
  end.
Ltac keeps_tac := repeat keeps_step.

Lemma keeps_write_chunks P cs :
  (forall c, P (EvSessionFile c) = true) -> keeps P (write_chunks cs).
Proof.
  intro HP. induction cs as [|c cs IH]; simpl.
  - apply keeps_ret.
  - apply keeps_bind; [apply keeps_get|]. intro s0.
    unfold write_session_file. keeps_tac. apply keeps_emit, HP.
Qed.

Lemma keeps_json_dump P h :
  (forall c, P (EvSessionFile c) = true) -> keeps P (json_dump h).
Proof. intro HP. apply keeps_write_chunks, HP. Qed.

Definition not_log (e : event) : bool := negb (is_log e).

Lemma not_log_session_file c : not_log (EvSessionFile c) = true.
Proof. reflexivity. Qed.

Ltac body_keeps :=
  keeps_tac;
  try (apply keeps_json_dump; intro; reflexivity).

Lemma login_body_no_log e p t rm rs : keeps not_log (login_body e p t rm rs).
Proof.
  unfold login_body, _create_hub_service, session_file_exists, load_session_file,
    make_hub_session, HubService_new, hs_connect, hs_pull, update_default, install,
    mkdir_exist_ok, open_for_write, write_session_file, return_user_settings,
    current_settings.
  body_keeps.
Qed.

Lemma save_body_no_log rs : keeps not_log (save_body rs).
Proof.
  unfold save_body, write_default_user_settings, HubService_new, hs_push,
    return_user_settings, current_settings.
  body_keeps.
Qed.

Lemma refresh_body_no_log rs : keeps not_log (refresh_body rs).
Proof.
  unfold refresh_body, read_default_user_settings, install, HubService_new, hs_pull,
    update_default, return_user_settings, current_settings.
  body_keeps.
Qed.

Lemma logout_body_no_log rs : keeps not_log (logout_body rs).
Proof.
  unfold logout_body, HubService_new, hs_disconnect, session_file_exists,
    unlink_session_file, write_session_file, read_default_user_settings, install,
    return_user_settings, current_settings.
  body_keeps.
Qed.

Lemma boundary_contract_of {A} name (body : M A) :
  keeps not_log body ->
  forall s, boundary_contract name body s (_log_account_command name body s).
Proof.
  intros Hk s. unfold boundary_contract. rewrite log_account_command_run.
  destruct (Hk s) as [new [Hev Hf]].
  destruct (body s) as [r0 s1]. simpl in Hev. exists new. auto.
Qed.

(** C4 *)
(** Claim C4: each of [login], [save], [refresh] and [logout] runs its body
    and then emits exactly one log record, for the route [/account/<name>],
    with empty [kwargs]; the body emits none.  The outcome the caller gets
    is the body's value, or, when the body raised [e], the single error
    [OpenBBError(e) from e], delivered after the record (the record's
    [exec_info] is that error). *)
Theorem operation_boundary_contract :
  (forall email password pat remember_me return_settings s,
     boundary_contract "login" (login_body email password pat remember_me return_settings) s
       (login email password pat remember_me return_settings s)) /\
  (forall return_settings s,
     boundary_contract "save" (save_body return_settings) s (save return_settings s)) /\
  (forall return_settings s,
     boundary_contract "refresh" (refresh_body return_settings) s (refresh return_settings s)) /\
  (forall return_settings s,
     boundary_contract "logout" (logout_body return_settings) s (logout return_settings s)).
Proof.
  repeat split; intros; apply boundary_contract_of.
  - apply login_body_no_log.
  - apply save_body_no_log.
  - apply refresh_body_no_log.
  - apply logout_body_no_log.
Qed.

(** *** Effects that touch nothing but the trace *)

(** [m] leaves every field but [events] unchanged and appends only events
    satisfying [P]. *)
Definition appends (P : event -> bool) {A} (m : M A) : Prop :=
  forall s, exists new,
    snd (m s) = mkSys (user_settings s) (default_settings s) (session_file s)
                  (dir_exists s) (parent_exists s) (events s ++ new) /\
    forallb P new = true.

Lemma appends_ret P {A} (a : A) : appends P (ret a).
Proof. intros [u d f de pe ev]. exists []. rewrite app_nil_r. auto. Qed.

Lemma appends_raise P {A} (e : exn) : appends P (@raise A e).
Proof. intros [u d f de pe ev]. exists []. rewrite app_nil_r. auto. Qed.

Lemma appends_get P : appends P get.
Proof. intros [u d f de pe ev]. exists []. rewrite app_nil_r. auto. Qed.

Lemma appends_lift P {A} (r : result A) : appends P (lift r).
Proof. intros [u d f de pe ev]. exists []. rewrite app_nil_r. auto. Qed.

Lemma appends_emit P (e : event) : P e = true -> appends P (emit e).
Proof. intros He [u d f de pe ev]. exists [e]. simpl. rewrite He. auto. Qed.

Lemma appends_bind P {A B} (m : M A) (k : A -> M B) :
  appends P m -> (forall a, appends P (k a)) -> appends P (bind m k).
Proof.
  intros Hm Hk s. unfold bind.
  destruct (Hm s) as [n1 [H1 F1]].
  destruct (m s) as [[a|e] s'] eqn:Heq; simpl in H1; subst s'.
  - destruct (Hk a (mkSys (user_settings s) (default_settings s) (session_file s)
                  (dir_exists s) (parent_exists s) (events s ++ n1))) as [n2 [H2 F2]].
    exists (n1 ++ n2). rewrite H2. simpl. rewrite <- app_assoc, forallb_app, F1, F2. auto.
  - exists n1. auto.
Qed.

Ltac appends_tac :=
  repeat match goal with
  | |- appends _ (bind _ _) => apply appends_bind; [| intro; cbv beta]
  | |- appends _ (emit _) => apply appends_emit; reflexivity
  | |- appends _ (ret _) => apply appends_ret
  | |- appends _ (raise _) => apply appends_raise
  | |- appends _ get => apply appends_get
  | |- appends _ (lift _) => apply appends_lift
  | |- appends _ (if ?b then _ else _) => destruct b
  | |- appends _ (match ?x with _ => _ end) => destruct x
  end.

Definition is_file_change (e : event) : bool :=
  match e with EvSessionFile _ => true | _ => false end.

Definition local_only (e : event) : bool := negb (is_remote e) && negb (is_log e).

Lemma create_hub_service_appends e p t :
  appends (fun ev => negb (is_file_change ev) && negb (is_log ev))
    (_create_hub_service e p t).
Proof.
  unfold _create_hub_service, session_file_exists, load_session_file,
    make_hub_session, HubService_new, hs_connect.
  appends_tac.
Qed.

(** Unfold every effect of the account code. *)
Ltac unfold_effects :=
  unfold login_body, save_body, refresh_body, logout_body, _create_hub_service,
    session_file_exists, load_session_file, make_hub_session, HubService_new,
    hs_connect, hs_pull, hs_push, hs_disconnect, update_default, install,
    read_default_user_settings, write_default_user_settings,
    mkdir_exist_ok, open_for_write, json_dump, unlink_session_file,
    write_session_file, return_user_settings, current_settings,
    bind, ret, get, modify, emit, lift, raise in *.

(** C1 *)
(** Claim C1: in a connected state (the current settings hold a hub session
    [h]) whose settings have id [X], if the pull for [h] returns [remote],
    [refresh] installs the merge [UserService.update_default(remote)] with
    its [id] set back to [X]: the id stays [X] and profile, credentials and
    preferences are those of the merged remote settings. *)
Theorem refresh_preserves_identity :
  forall (s : Sys) (h : HubSession) (remote : UserSettings) (return_settings : bool),
    hub_session (profile (user_settings s)) = Some h ->
    hub_pull (Some h) = Ok remote ->
    let '(r, s') := refresh return_settings s in
    let merged := update_default_merge (default_settings s) remote in
    id (user_settings s') = id (user_settings s) /\
    profile (user_settings s') = profile merged /\
    credentials (user_settings s') = credentials merged /\
    preferences (user_settings s') = preferences merged /\
    r = Ok (if return_settings then Some (user_settings s') else None).
Proof.
  intros [u d f de pe ev] h remote rs Hs Hp. simpl in Hs.
  unfold refresh. rewrite log_account_command_run.
  unfold_effects. simpl. rewrite Hs, Hp. simpl.
  destruct rs; simpl; repeat split.
Qed.

(** C2 *)
(** Claim C2: from a connected state whose default local settings carry no
    hub session, [logout] disconnects, leaves no session file (whether one
    existed or not), installs the default settings, which are anonymous,
    and succeeds; a second [logout] right after it, and any [logout] from an
    anonymous state, fails with the boundary error wrapping
    [OpenBBError("Not connected to hub.")]. *)
Theorem logout_idempotent :
  (forall (s : Sys) (h : HubSession) (rs rs' : bool),
     hub_session (profile (user_settings s)) = Some h ->
     hub_session (profile (default_settings s)) = None ->
     let '(r1, s1) := logout rs s in
     r1 = Ok (if rs then Some (default_settings s) else None) /\
     In EvDisconnect (events s1) /\
     session_file s1 = None /\
     user_settings s1 = default_settings s /\
     hub_session (profile (user_settings s1)) = None /\
     fst (logout rs' s1) = Err (OpenBBErrorFrom (OpenBBError "Not connected to hub."))) /\
  (forall (s : Sys) (rs : bool),
     hub_session (profile (user_settings s)) = None ->
     fst (logout rs s) = Err (OpenBBErrorFrom (OpenBBError "Not connected to hub."))).
Proof.
  split.
  - intros [u d f de pe ev] h rs rs' Hs Hd. simpl in Hs, Hd.
    unfold logout. rewrite log_account_command_run.
    unfold_effects. simpl. rewrite Hs.
    destruct f as [c|], rs; simpl;
      rewrite log_account_command_run; simpl; rewrite Hd; simpl;
      (repeat split; [repeat rewrite in_app_iff; simpl; tauto]).
  - intros [u d f de pe ev] rs Hs. simpl in Hs.
    unfold logout. rewrite log_account_command_run.
    unfold_effects. simpl. rewrite Hs. reflexivity.
Qed.

(** Close a goal [exists new, events s' = events s ++ new /\ forallb P new = true]
    whose [s'] is computed. *)
Ltac trace_suffix :=
  eexists; split; [rewrite <- ?app_assoc; reflexivity | reflexivity].

(** C3 *)
(** Claim C3: [login()] with [email], [password] and [pat] all [None] and no
    session file fails with the boundary error wrapping
    [OpenBBError("Session not found.")]; no hub service is created and no
    hub call is made, and the current settings are unchanged. *)
Theorem login_requires_session_file :
  forall (s : Sys) (remember_me return_settings : bool),
    session_file s = None ->
    let '(r, s') := login None None None remember_me return_settings s in
    r = Err (OpenBBErrorFrom (OpenBBError "Session not found.")) /\
    user_settings s' = user_settings s /\
    session_file s' = None /\
    exists new, events s' = events s ++ new /\
                forallb (fun e => negb (is_remote e)) new = true.
Proof.
  intros [u d f de pe ev] rm rs Hf. simpl in Hf. subst f.
  unfold login. rewrite log_account_command_run.
  unfold_effects. simpl.
  repeat split. trace_suffix.
Qed.

(** C7 *)
(** Claim C7: in an anonymous state (no hub session in the current
    settings), [save] writes the current settings to the default store and
    [refresh] installs the default settings; neither creates a hub service
    nor makes any hub call. *)
Theorem anonymous_save_refresh_local :
  forall (s : Sys) (return_settings : bool),
    hub_session (profile (user_settings s)) = None ->
    (let '(r, s') := save return_settings s in
     r = Ok (if return_settings then Some (user_settings s) else None) /\
     default_settings s' = user_settings s /\
     user_settings s' = user_settings s /\
     exists new, events s' = events s ++ new /\
                 forallb (fun e => negb (is_remote e)) new = true) /\
    (let '(r, s') := refresh return_settings s in
     r = Ok (if return_settings then Some (default_settings s) else None) /\
     user_settings s' = default_settings s /\
     exists new, events s' = events s ++ new /\
                 forallb (fun e => negb (is_remote e)) new = true).
Proof.
  intros [u d f de pe ev] rs Hs. simpl in Hs.
  unfold save, refresh. rewrite !log_account_command_run.
  unfold_effects. simpl. rewrite Hs.
  destruct rs; simpl; repeat split; trace_suffix.
Qed.

(** *** Running [login] *)

Lemma create_hub_service_frame e p t s :
  exists new,
    snd (_create_hub_service e p t s) =
      mkSys (user_settings s) (default_settings s) (session_file s)
        (dir_exists s) (parent_exists s) (events s ++ new) /\
    forallb (fun ev => negb (is_file_change ev) && negb (is_log ev)) new = true.
Proof. apply create_hub_service_appends. Qed.

Lemma write_chunks_run cs : forall u d acc de pe ev,
  write_chunks cs (mkSys u d (Some acc) de pe ev) =
  (Ok tt, mkSys u d (Some (appended acc cs)) de pe
            (ev ++ map EvSessionFile (chunk_prefixes acc cs))).
Proof.
  induction cs as [|c cs IH]; intros u d acc de pe ev; simpl.
  - rewrite app_nil_r. reflexivity.
  - unfold write_session_file, bind, get, modify, emit, set_session_file_sys,
      add_event_sys. simpl.
    rewrite IH, <- app_assoc. reflexivity.
Qed.

Lemma file_states_app l1 l2 : file_states (l1 ++ l2) = file_states l1 ++ file_states l2.
Proof. unfold file_states. apply flat_map_app. Qed.

Lemma file_states_session_files l : file_states (map EvSessionFile l) = l.
Proof. induction l as [|c l IH]; simpl; [reflexivity | rewrite IH; reflexivity]. Qed.

Lemma file_states_no_change l :
  forallb (fun ev => negb (is_file_change ev) && negb (is_log ev)) l = true ->
  file_states l = [].
Proof.
  induction l as [|ev l IH]; simpl; [reflexivity|].
  intro H. apply andb_prop in H as [H1 H2].
  destruct ev; simpl in H1 |- *; try discriminate; apply IH, H2.
Qed.

(** The steps of [login] after [hs.pull()]. *)
Ltac login_tail :=
  unfold hs_pull, update_default, install, mkdir_exist_ok, open_for_write,
    json_dump, write_session_file, return_user_settings, current_settings,
    bind, ret, get, modify, emit, lift, raise, set_user_settings_sys,
    set_session_file_sys, set_dir_exists_sys, add_event_sys; simpl.

(** What [login] installs as the current settings. *)
Lemma login_installed email password pat remember_me return_settings s :
  user_settings (snd (login email password pat remember_me return_settings s)) =
  match fst (_create_hub_service email password pat s) with
  | Err _ => user_settings s
  | Ok hs =>
      match hub_pull hs with
      | Err _ => user_settings s
      | Ok remote => update_default_merge (default_settings s) remote
      end
  end.
Proof.
  destruct (create_hub_service_frame email password pat s) as [new [Hs1 _]].
  unfold login. rewrite log_account_command_run.
  unfold login_body at 1. unfold bind at 1.
  destruct (_create_hub_service email password pat s) as [[hs|x] s1] eqn:Hc;
    simpl in Hs1; subst s1; simpl; [|reflexivity].
  login_tail. destruct (hub_pull hs) as [remote|x]; simpl; [|reflexivity].
  destruct remember_me, (dir_exists s), (parent_exists s), hs as [h|]; simpl;
    try rewrite write_chunks_run; destruct return_settings; reflexivity.
Qed.

(** C9 *)
(** Claim C9: [login] and a connected [refresh] install settings in one
    step: when creating the hub service or the pull fails the current
    settings are those before the call; otherwise they are the pulled
    settings merged by [UserService.update_default] (for [refresh], with the
    current id put back), and nothing else. *)
Theorem settings_commit_all_or_nothing :
  (forall email password pat remember_me return_settings s,
     let s' := snd (login email password pat remember_me return_settings s) in
     match fst (_create_hub_service email password pat s) with
     | Err _ => user_settings s' = user_settings s
     | Ok hs =>
         match hub_pull hs with
         | Err _ => user_settings s' = user_settings s
         | Ok remote => user_settings s' = update_default_merge (default_settings s) remote
         end
     end) /\
  (forall return_settings s h,
     hub_session (profile (user_settings s)) = Some h ->
     let s' := snd (refresh return_settings s) in
     match hub_pull (Some h) with
     | Err _ => user_settings s' = user_settings s
     | Ok remote =>
         user_settings s' =
           set_id (id (user_settings s)) (update_default_merge (default_settings s) remote)
     end).
Proof.
  split.
  - intros email password pat rm rs s. cbv zeta. rewrite login_installed.
    destruct (fst (_create_hub_service email password pat s)) as [hs|x]; [|reflexivity].
    destruct (hub_pull hs); reflexivity.
  - intros rs [u d f de pe ev] h Hs. simpl in Hs. cbv zeta.
    unfold refresh. rewrite log_account_command_run.
    unfold_effects. simpl. rewrite Hs.
    destruct (hub_pull (Some h)); simpl; destruct rs; reflexivity.
Qed.

(** C5 *)
(** Claim C5: when [UserService.update_default] keeps the id of the
    incoming settings (the spec's [mergeIncoming], remote authoritative),
    every [login] whose pull returns [remote] installs settings with the id
    of [remote], whatever the id held before. *)
Theorem login_remote_identity :
  (forall d u, id (update_default_merge d u) = id u) ->
  forall email password pat remember_me return_settings s hs remote,
    fst (_create_hub_service email password pat s) = Ok hs ->
    hub_pull hs = Ok remote ->
    id (user_settings (snd (login email password pat remember_me return_settings s)))
    = id remote.
Proof.
  intros Hid email password pat rm rs s hs remote Hc Hp.
  rewrite login_installed, Hc, Hp. apply Hid.
Qed.

(** C6 *)
(** Claim C6 (as the code does it): when [login(..., remember_me=True)]
    connects with session [h], pulls, and the session directory exists or
    can be created, the session file ends up holding exactly the text
    [json.dump] writes for [h], whatever it held before; on the way it is
    truncated to the empty file by [open(..., "w")] and then grows chunk by
    chunk, so the contents it takes are [""] followed by the successive
    prefixes of the new text. *)
Theorem login_remember_me_session_write :
  forall email password pat return_settings s h remote,
    fst (_create_hub_service email password pat s) = Ok (Some h) ->
    hub_pull (Some h) = Ok remote ->
    dir_exists s = true \/ parent_exists s = true ->
    let s' := snd (login email password pat true return_settings s) in
    session_file s' = Some (appended "" (session_dump_chunks h)) /\
    file_states (events s') =
      file_states (events s) ++ Some "" :: chunk_prefixes "" (session_dump_chunks h).
Proof.
  intros email password pat rs s h remote Hc0 Hp Hd. cbv zeta.
  destruct (create_hub_service_frame email password pat s) as [new [Hs1 Hnew]].
  unfold login. rewrite log_account_command_run.
  unfold login_body. login_tail.
  destruct (_create_hub_service email password pat s) as [[hs|x] s1] eqn:Hc;
    simpl in Hs1, Hc0; [|discriminate]. injection Hc0 as ->. subst s1.
  simpl. rewrite Hp. simpl.
  destruct (dir_exists s), (parent_exists s); try (destruct Hd; discriminate); simpl;
    rewrite write_chunks_run; destruct rs; simpl; split; try reflexivity;
    rewrite !file_states_app, (file_states_no_change new Hnew), file_states_session_files;
    simpl; rewrite !app_nil_r, <- app_assoc; reflexivity.
Qed.

(** C8 *)
(** Claim C8: [login()] without credentials, when the session file exists
    but its text is not JSON or its JSON is not a valid [HubSession], fails
    with the boundary error wrapping [JSONDecodeError] or the validation
    error, never with the "Session not found." error, and installs
    nothing. *)
Theorem corrupt_session_not_absence :
  forall s c remember_me return_settings,
    session_file s = Some c ->
    match json_load c with Some j => hub_session_of_dict j | None => None end = None ->
    let '(r, s') := login None None None remember_me return_settings s in
    (r = Err (OpenBBErrorFrom JSONDecodeError) \/ r = Err (OpenBBErrorFrom ValidationError)) /\
    r <> Err (OpenBBErrorFrom (OpenBBError "Session not found.")) /\
    user_settings s' = user_settings s.
Proof.
  intros [u d f de pe ev] c rm rs Hf Hv. simpl in Hf. subst f.
  unfold login. rewrite log_account_command_run.
  unfold_effects. simpl.
  destruct (json_load c) as [j|]; [rewrite Hv|]; simpl;
    (split; [auto | split; [discriminate | reflexivity]]).
Qed.

Lemma keeps_log_account_command P {A} (name : string) (body : M A) :
  keeps P body -> (forall r, P (EvLog r) = true) ->
  keeps P (_log_account_command name body).
Proof.
  intros Hk Hl s. rewrite log_account_command_run.
  destruct (Hk s) as [new [Hev Hf]]. destruct (body s) as [r0 s1]. simpl in *.
  exists (new ++ [EvLog (audit_record name s1 (exc_of (boundary_result r0)))]).
  rewrite Hev, app_assoc, forallb_app, Hf. simpl. rewrite Hl. auto.
Qed.

(** C10 *)
(** Claim C10: as soon as one of [email], [password], [pat] is not [None],
    [_create_hub_service] builds a fresh [HubService()] and calls
    [connect(email, password, pat)], with the outcome of [connect]; the
    whole [login] run then never checks for nor reads the session file, so
    the stored-session path (and its "Session not found." error) is taken
    only when all three are [None]. *)
Theorem partial_credentials_bypass_session_file :
  forall email password pat remember_me return_settings s,
    (email <> None \/ password <> None \/ pat <> None) ->
    _create_hub_service email password pat s =
      (match hub_connect email password pat with
       | Ok h => Ok (Some h)
       | Err x => Err x
       end,
       add_event_sys EvConnect (add_event_sys (EvHubService None) s)) /\
    exists new,
      events (snd (login email password pat remember_me return_settings s)) = events s ++ new /\
      forallb (fun ev => negb (is_session_file_read ev)) new = true.
Proof.
  intros email password pat rm rs s Hn. split.
  - destruct email, password, pat;
      try (exfalso; intuition congruence);
      unfold _create_hub_service, HubService_new, hs_connect, bind, ret, emit, modify, lift;
      destruct (hub_connect _ _ _); reflexivity.
  - apply keeps_log_account_command; [|reflexivity].
    unfold login_body, _create_hub_service, session_file_exists, load_session_file,
      make_hub_session, HubService_new, hs_connect, hs_pull, update_default, install,
      mkdir_exist_ok, open_for_write, write_session_file, return_user_settings,
      current_settings.
    body_keeps.
    all: exfalso; intuition congruence.
Qed.

(** *** The default store stays anonymous *)

Lemma login_default_settings email password pat remember_me return_settings s :
  default_settings (snd (login email password pat remember_me return_settings s)) =
  default_settings s.
Proof.
  destruct (create_hub_service_frame email password pat s) as [new [Hs1 _]].
  unfold login. rewrite log_account_command_run.
  unfold login_body. login_tail.
  destruct (_create_hub_service email password pat s) as [[hs|x] s1] eqn:Hc;
    simpl in Hs1; subst s1; simpl; [|reflexivity].
  destruct (hub_pull hs) as [remote|x]; simpl; [|reflexivity].
  destruct remember_me, (dir_exists s), (parent_exists s), hs as [h|]; simpl;
    try rewrite write_chunks_run; destruct return_settings; reflexivity.
Qed.

(** No account operation stores default settings holding a hub session when
    the store held none: [save] writes the current settings to the store
    only when they hold no session. *)
Lemma default_store_stays_anonymous (s : Sys) :
  hub_session (profile (default_settings s)) = None ->
  (forall email password pat remember_me return_settings,
     hub_session (profile (default_settings
       (snd (login email password pat remember_me return_settings s))))= None) /\
  (forall return_settings,
     hub_session (profile (default_settings (snd (save return_settings s)))) = None) /\
  (forall return_settings,
     hub_session (profile (default_settings (snd (refresh return_settings s)))) = None) /\
  (forall return_settings,
     hub_session (profile (default_settings (snd (logout return_settings s)))) = None).
Proof.
  intro Hd. repeat split; intros.
  - rewrite login_default_settings. exact Hd.
  - destruct s as [u d f de pe ev]. simpl in Hd.
    unfold save. rewrite log_account_command_run. unfold_effects. simpl.
    destruct (hub_session (profile u)) as [h|] eqn:Hu; simpl.
    + destruct (hub_push (Some h) u); destruct return_settings; exact Hd.
    + destruct return_settings; exact Hu.
  - destruct s as [u d f de pe ev]. simpl in Hd.
    unfold refresh. rewrite log_account_command_run. unfold_effects. simpl.
    destruct (hub_session (profile u)) as [h|]; simpl;
      [destruct (hub_pull (Some h)); simpl|]; destruct return_settings; exact Hd.
  - destruct s as [u d f de pe ev]. simpl in Hd.
    unfold logout. rewrite log_account_command_run. unfold_effects. simpl.
    destruct (hub_session (profile u)) as [h|]; simpl; [|exact Hd].
    destruct f; simpl; destruct return_settings; exact Hd.
Qed.


(** *** Further properties of the account operations *)

(** The stored-session branch of [_create_hub_service], when the file holds
    a valid session. *)
Lemma create_hub_service_stored_run s c j h :
  session_file s = Some c -> json_load c = Some j -> hub_session_of_dict j = Some h ->
  _create_hub_service None None None s =
    (Ok (Some h),
     add_event_sys (EvHubService (Some h))
       (add_event_sys EvSessionRead (add_event_sys EvSessionExists s))).
Proof.
  intros Hf Hj Hh. destruct s as [u d f de pe ev]. simpl in Hf. subst f.
  unfold _create_hub_service, session_file_exists, load_session_file,
    make_hub_session, HubService_new, bind, ret, get, emit, modify, raise.
  simpl. rewrite Hj. simpl. rewrite Hh. reflexivity.
Qed.


(** The file left by a [login(..., remember_me=True)] that connected with
    [h], pulled, and had its directory. *)
Lemma login_remember_file email password pat return_settings s h remote :
  fst (_create_hub_service email password pat s) = Ok (Some h) ->
  hub_pull (Some h) = Ok remote ->
  dir_exists s = true \/ parent_exists s = true ->
  session_file (snd (login email password pat true return_settings s)) =
    Some (appended "" (session_dump_chunks h)).
Proof.
  intros Hc0 Hp Hd.
  destruct (create_hub_service_frame email password pat s) as [new [Hs1 _]].
  unfold login. rewrite log_account_command_run.
  unfold login_body. login_tail.
  destruct (_create_hub_service email password pat s) as [[hs|x] s1] eqn:Hc;
    simpl in Hs1, Hc0; [|discriminate]. injection Hc0 as ->. subst s1.
  simpl. rewrite Hp. simpl.
  destruct (dir_exists s), (parent_exists s); try (destruct Hd; discriminate); simpl;
    rewrite write_chunks_run; destruct return_settings; reflexivity.
Qed.

(** Remember-me round trip: if the text [json.dump] writes for [h] loads back
    as [h], then after a [login(..., remember_me=True)] that connected with
    [h] and pulled, a following [login()] without credentials resumes
    [HubService(h)] from the file without calling [connect], and installs the
    merge of what the pull for [h] returns. *)
Theorem remember_me_round_trip :
  forall email password pat return_settings remember_me' return_settings' s h remote j,
    fst (_create_hub_service email password pat s) = Ok (Some h) ->
    hub_pull (Some h) = Ok remote ->
    dir_exists s = true \/ parent_exists s = true ->
    json_load (appended "" (session_dump_chunks h)) = Some j ->
    hub_session_of_dict j = Some h ->
    let s1 := snd (login email password pat true return_settings s) in
    _create_hub_service None None None s1 =
      (Ok (Some h),
       add_event_sys (EvHubService (Some h))
         (add_event_sys EvSessionRead (add_event_sys EvSessionExists s1))) /\
    user_settings (snd (login None None None remember_me' return_settings' s1)) =
      update_default_merge (default_settings s) remote.
Proof.
  intros email password pat rs rm' rs' s h remote j Hc Hp Hd Hj Hh. cbv zeta.
  assert (Hrun := create_hub_service_stored_run
                    (snd (login email password pat true rs s)) _ j h
                    (login_remember_file email password pat rs s h remote Hc Hp Hd) Hj Hh).
  split; [exact Hrun|].
  rewrite login_installed, Hrun. simpl. rewrite Hp, login_default_settings. reflexivity.
Qed.

(** [return_settings] changes nothing but the value returned, for each of
    the four operations. *)
Theorem return_settings_only_affects_result :
  forall s,
    (forall email password pat remember_me,
       flag_only_in_result (login email password pat remember_me) s) /\
    flag_only_in_result save s /\
    flag_only_in_result refresh s /\
    flag_only_in_result logout s.
Proof.
  intro s. split; [|split; [|split]].
  - intros email password pat remember_me. unfold flag_only_in_result.
    destruct (create_hub_service_frame email password pat s) as [new [Hs1 _]].
    unfold login. rewrite !log_account_command_run.
    unfold login_body. login_tail.
    destruct (_create_hub_service email password pat s) as [[hs|x] s1] eqn:Hc;
      simpl in Hs1; subst s1; simpl; [|auto].
    destruct (hub_pull hs) as [remote|x]; simpl; [|auto].
    destruct remember_me, (dir_exists s), (parent_exists s), hs as [h|]; simpl;
      try rewrite write_chunks_run; simpl; auto.
  - unfold flag_only_in_result. destruct s as [u d f de pe ev].
    unfold save. rewrite !log_account_command_run. unfold_effects. simpl.
    destruct (hub_session (profile u)) as [h|]; simpl; [|auto].
    destruct (hub_push (Some h) u); simpl; auto.
  - unfold flag_only_in_result. destruct s as [u d f de pe ev].
    unfold refresh. rewrite !log_account_command_run. unfold_effects. simpl.
    destruct (hub_session (profile u)) as [h|]; simpl; [|auto].
    destruct (hub_pull (Some h)); simpl; auto.
  - unfold flag_only_in_result. destruct s as [u d f de pe ev].
    unfold logout. rewrite !log_account_command_run. unfold_effects. simpl.
    destruct (hub_session (profile u)) as [h|]; simpl; [|auto].
    destruct f; simpl; auto.
Qed.


(** [save] never changes the current settings nor the session file.
    Anonymous, it stores the current settings as the defaults; connected
    with session [h], it pushes exactly the current settings through
    [HubService(h)], leaves the default store alone, and fails exactly when
    the push fails, with the push's error wrapped. *)
Theorem save_effects :
  forall return_settings s,
    let '(r, s') := save return_settings s in
    user_settings s' = user_settings s /\
    session_file s' = session_file s /\
    match hub_session (profile (user_settings s)) with
    | None =>
        default_settings s' = user_settings s /\
        r = Ok (if return_settings then Some (user_settings s) else None)
    | Some h =>
        default_settings s' = default_settings s /\
        In (EvPush (user_settings s)) (events s') /\
        r = match hub_push (Some h) (user_settings s) with
            | Ok _ => Ok (if return_settings then Some (user_settings s) else None)
            | Err e => Err (OpenBBErrorFrom e)
            end
    end.
Proof.
  intros rs [u d f de pe ev]. simpl.
  unfold save. rewrite log_account_command_run. unfold_effects. simpl.
  destruct (hub_session (profile u)) as [h|]; simpl.
  - destruct (hub_push (Some h) u); simpl; destruct rs; simpl;
      (repeat split; repeat rewrite in_app_iff; simpl; tauto).
  - destruct rs; repeat split.
Qed.


(** Only [logout] and [login(..., remember_me=True)] touch the session file:
    [login(..., remember_me=False)], [save] and [refresh] leave its content
    as it was and never write it. *)
Theorem session_file_untouched :
  forall s,
    (forall email password pat return_settings,
       let s' := snd (login email password pat false return_settings s) in
       session_file s' = session_file s /\ file_states (events s') = file_states (events s)) /\
    (forall return_settings,
       let s' := snd (save return_settings s) in
       session_file s' = session_file s /\ file_states (events s') = file_states (events s)) /\
    (forall return_settings,
       let s' := snd (refresh return_settings s) in
       session_file s' = session_file s /\ file_states (events s') = file_states (events s)).
Proof.
  intro s. split; [|split].
  - intros email password pat rs. cbv zeta.
    destruct (create_hub_service_frame email password pat s) as [new [Hs1 Hnew]].
    unfold login. rewrite log_account_command_run.
    unfold login_body. login_tail.
    destruct (_create_hub_service email password pat s) as [[hs|x] s1] eqn:Hc;
      simpl in Hs1; subst s1; simpl.
    + destruct (hub_pull hs); destruct rs; simpl; split; try reflexivity;
        rewrite !file_states_app, (file_states_no_change new Hnew); simpl;
        rewrite !app_nil_r; reflexivity.
    + split; [reflexivity|].
      rewrite !file_states_app, (file_states_no_change new Hnew); simpl;
        rewrite !app_nil_r; reflexivity.
  - intro rs. cbv zeta. destruct s as [u d f de pe ev].
    unfold save. rewrite log_account_command_run. unfold_effects. simpl.
    destruct (hub_session (profile u)) as [h|]; simpl;
      [destruct (hub_push (Some h) u)|]; destruct rs; simpl;
      (split; [reflexivity|]); rewrite !file_states_app; simpl; rewrite ?app_nil_r;
      reflexivity.
  - intro rs. cbv zeta. destruct s as [u d f de pe ev].
    unfold refresh. rewrite log_account_command_run. unfold_effects. simpl.
    destruct (hub_session (profile u)) as [h|]; simpl;
      [destruct (hub_pull (Some h))|]; destruct rs; simpl;
      (split; [reflexivity|]); rewrite !file_states_app; simpl; rewrite ?app_nil_r;
      reflexivity.
Qed.

(** A [login(..., remember_me=True)] whose connect and pull succeed but
    whose session directory is missing together with its parent
    ([mkdir(parents=False)]) fails with the wrapped [FileNotFoundError],
    yet keeps the pulled settings installed; the session file is not
    touched. *)
Theorem login_mkdir_failure_keeps_settings :
  forall email password pat return_settings s hs remote,
    fst (_create_hub_service email password pat s) = Ok hs ->
    hub_pull hs = Ok remote ->
    dir_exists s = false -> parent_exists s = false ->
    let '(r, s') := login email password pat true return_settings s in
    r = Err (OpenBBErrorFrom FileNotFoundError) /\
    user_settings s' = update_default_merge (default_settings s) remote /\
    session_file s' = session_file s.
Proof.
  intros email password pat rs s hs0 remote Hc0 Hp Hd Hpe.
  destruct (create_hub_service_frame email password pat s) as [new [Hs1 _]].
  unfold login. rewrite log_account_command_run.
  unfold login_body. login_tail.
  destruct (_create_hub_service email password pat s) as [[hs|x] s1] eqn:Hc;
    simpl in Hs1, Hc0; [|discriminate]. injection Hc0 as ->. subst s1.
  simpl. rewrite Hp, Hd, Hpe. simpl. auto.
Qed.

(** [logout] never connects, pulls, pushes nor writes the default store:
    edits made to the current settings and not saved are discarded. *)
Theorem logout_discards_unsaved :
  forall return_settings, keeps no_settings_transfer (logout return_settings).
Proof.
  intro rs. apply keeps_log_account_command; [|reflexivity].
  unfold logout_body, HubService_new, hs_disconnect, session_file_exists,
    unlink_session_file, write_session_file, read_default_user_settings, install,
    return_user_settings, current_settings.
  keeps_tac.
Qed.

End Proofs.

(** ** Witnesses: the theorems at concrete runs *)

Lemma refresh_preserves_identity_witness :
  let '(r, s') := @refresh sample_env true sys_connected in
  let merged := sample_remote (sample_session "T") in
  id (user_settings s') = "X" /\
  profile (user_settings s') = profile merged /\
  credentials (user_settings s') = credentials merged /\
  preferences (user_settings s') = preferences merged /\
  r = Ok (Some (user_settings s')).
Proof.
  refine (@refresh_preserves_identity sample_env sys_connected (sample_session "T")
            (sample_remote (sample_session "T")) true _ _); reflexivity.
Defined.

Lemma logout_idempotent_witness :
  (let '(r1, s1) := logout false sys_connected in
   r1 = Ok None /\
   In EvDisconnect (events s1) /\
   session_file s1 = None /\
   user_settings s1 = local_defaults /\
   hub_session (profile (user_settings s1)) = None /\
   fst (logout true s1) = Err (OpenBBErrorFrom (OpenBBError "Not connected to hub."))) /\
  fst (logout false sys_anonymous) = Err (OpenBBErrorFrom (OpenBBError "Not connected to hub.")).
Proof.
  split.
  - refine (proj1 logout_idempotent sys_connected (sample_session "T") false true _ _);
      reflexivity.
  - refine (proj2 logout_idempotent sys_anonymous false _); reflexivity.
Defined.

Lemma login_requires_session_file_witness :
  let '(r, s') := @login sample_env None None None true false sys_anonymous in
  r = Err (OpenBBErrorFrom (OpenBBError "Session not found.")) /\
  user_settings s' = local_defaults /\
  session_file s' = None /\
  exists new, events s' = events sys_anonymous ++ new /\
              forallb (fun e => negb (is_remote e)) new = true.
Proof.
  refine (@login_requires_session_file sample_env sys_anonymous true false _); reflexivity.
Defined.

Lemma login_remote_identity_witness :
  id (user_settings (snd (@login sample_env None None (Some "T") false false sys_connected)))
  = "Y".
Proof.
  refine (@login_remote_identity sample_env _ None None (Some "T") false false sys_connected
            (Some (sample_session "T")) (sample_remote (sample_session "T")) _ _).
  - intros d u. reflexivity.
  - reflexivity.
  - reflexivity.
Defined.

Lemma login_remember_me_session_write_witness :
  let s' := snd (@login sample_env None None (Some "T") true false sys_connected) in
  session_file s' = Some "{T}" /\
  file_states (events s') = [Some ""; Some "{"; Some "{T"; Some "{T}"].
Proof.
  refine (@login_remember_me_session_write sample_env None None (Some "T") false
            sys_connected (sample_session "T") (sample_remote (sample_session "T")) _ _ _).
  - reflexivity.
  - reflexivity.
  - left. reflexivity.
Defined.

Lemma anonymous_save_refresh_local_witness :
  (let '(r, s') := @save sample_env true sys_anonymous in
   r = Ok (Some local_defaults) /\
   default_settings s' = local_defaults /\
   user_settings s' = local_defaults /\
   exists new, events s' = events sys_anonymous ++ new /\
               forallb (fun e => negb (is_remote e)) new = true) /\
  (let '(r, s') := @refresh sample_env true sys_anonymous in
   r = Ok (Some local_defaults) /\
   user_settings s' = local_defaults /\
   exists new, events s' = events sys_anonymous ++ new /\
               forallb (fun e => negb (is_remote e)) new = true).
Proof.
  refine (@anonymous_save_refresh_local sample_env sys_anonymous true _); reflexivity.
Defined.

Lemma corrupt_session_not_absence_witness :
  let '(r, s') := @login sample_env None None None false false sys_corrupt in
  (r = Err (OpenBBErrorFrom JSONDecodeError) \/ r = Err (OpenBBErrorFrom ValidationError)) /\
  r <> Err (OpenBBErrorFrom (OpenBBError "Session not found.")) /\
  user_settings s' = local_defaults.
Proof.
  refine (@corrupt_session_not_absence sample_env sys_corrupt "not json" false false _ _);
    reflexivity.
Defined.

Lemma settings_commit_all_or_nothing_witness :
  user_settings (snd (@refresh sample_env false sys_connected))
  = set_id "X" (sample_remote (sample_session "T")) /\
  user_settings (snd (@login sample_env None None (Some "T") false false sys_connected))
  = sample_remote (sample_session "T").
Proof.
  split.
  - refine (proj2 (@settings_commit_all_or_nothing sample_env) false sys_connected
              (sample_session "T") _); reflexivity.
  - exact (proj1 (@settings_commit_all_or_nothing sample_env) None None (Some "T")
             false false sys_connected).
Defined.

Lemma partial_credentials_bypass_session_file_witness :
  @_create_hub_service sample_env (Some "user@example.com") None None sys_corrupt =
    (Err (OpenBBError "Please provide 'email' and 'password' or 'pat'"),
     add_event_sys EvConnect (add_event_sys (EvHubService None) sys_corrupt)) /\
  exists new,
    events (snd (@login sample_env (Some "user@example.com") None None false false sys_corrupt))
    = events sys_corrupt ++ new /\
    forallb (fun ev => negb (is_session_file_read ev)) new = true.
Proof.
  refine (@partial_credentials_bypass_session_file sample_env (Some "user@example.com")
            None None false false sys_corrupt _).
  left. discriminate.
Defined.


Lemma remember_me_round_trip_witness :
  let s1 := snd (@login roundtrip_env None None (Some "T") true false sys_anonymous) in
  @_create_hub_service roundtrip_env None None None s1 =
    (Ok (Some (sample_session "T")),
     add_event_sys (EvHubService (Some (sample_session "T")))
       (add_event_sys EvSessionRead (add_event_sys EvSessionExists s1))) /\
  user_settings (snd (@login roundtrip_env None None None false false s1)) =
    merge_incoming (default_settings sys_anonymous) (sample_remote (sample_session "T")).
Proof.
  refine (@remember_me_round_trip roundtrip_env None None (Some "T") false false false
            sys_anonymous (sample_session "T") (sample_remote (sample_session "T"))
            (JStr "T") _ _ _ _ _).
  - reflexivity.
  - reflexivity.
  - left. reflexivity.
  - reflexivity.
  - reflexivity.
Defined.


Lemma login_mkdir_failure_keeps_settings_witness :
  let '(r, s') := @login sample_env None None (Some "T") true false sys_no_dir in
  r = Err (OpenBBErrorFrom FileNotFoundError) /\
  user_settings s' = merge_incoming local_defaults (sample_remote (sample_session "T")) /\
  session_file s' = None.
Proof.
  refine (@login_mkdir_failure_keeps_settings sample_env None None (Some "T") false
            sys_no_dir (Some (sample_session "T")) (sample_remote (sample_session "T"))
            _ _ _ _); reflexivity.
Defined.

(** ** Counterexample *)

(** C6: the session-file write of [login(..., remember_me=True)] is not
    atomic.  Connected with a stale session file ["old"], [login(pat="T",
    remember_me=True)] makes the file go through [""] (the truncation of
    [open(..., "w")]) and the partial texts ["{"], ["{T"] before it holds
    the new text ["{T}"]. *)
Lemma login_session_write_torn :
  ~ (forall (s : Sys) (email password pat : option string) (return_settings : bool),
       let s' := snd (@login sample_env email password pat true return_settings s) in
       only_old_or_new (session_file s) (session_file s') (events s') = true).
Proof.
  intro H. specialize (H sys_connected None None (Some "T") false).
  vm_compute in H. discriminate H.
Qed.

(** ** Properties of the [upper_symbol] validators *)

Module InstitutionalOwnershipProofs.
Import InstitutionalOwnership.

Lemma py_upper_app f a b : py_upper f (a ++ b) = py_upper f a ++ py_upper f b.
Proof. unfold py_upper. apply flat_map_app. Qed.

(** For a list or a set of symbols, [InstitutionalOwnershipData.upper_symbol]
    returns what uppercasing the comma-joined symbols returns; for a single
    string it returns what the query-parameter validator returns. *)
Theorem data_upper_symbol_is_upper_of_join :
  forall (f : N -> list N) (l : list pystr),
    data_upper_symbol f (SymList l) = py_upper f (py_join [comma] l) /\
    data_upper_symbol f (SymSet l) = py_upper f (py_join [comma] l) /\
    (forall v, data_upper_symbol f (SymStr v) = query_upper_symbol f v).
Proof.
  intros f l.
  assert (H : py_join [comma] (map (py_upper f) l) = py_upper f (py_join [comma] l)).
  { induction l as [|x [|y l] IH]; simpl; try reflexivity.
    simpl in IH. rewrite IH, py_upper_app. reflexivity. }
  simpl. auto.
Qed.

Lemma upper_cp_no_comma f c :
  (forall d, (128 <= d)%N -> ~ In comma (f d)) -> c <> comma -> ~ In comma (upper_cp f c).
Proof.
  intros Hf Hc. unfold upper_cp, comma in *.
  destruct ((97 <=? c)%N) eqn:H1, ((c <=? 122)%N) eqn:H2; simpl;
    try (apply N.leb_le in H1); try (apply N.leb_gt in H1);
    try (apply N.leb_le in H2); try (apply N.leb_gt in H2);
    try (intros [H|[]]; lia);
    (destruct ((c <? 128)%N) eqn:H3;
       [apply N.ltb_lt in H3; simpl; intros [H|[]]; lia
       | apply N.ltb_ge in H3; apply Hf; lia]).
Qed.

Lemma py_upper_no_comma f v :
  (forall d, (128 <= d)%N -> ~ In comma (f d)) -> ~ In comma v -> ~ In comma (py_upper f v).
Proof.
  intros Hf Hv Hin. unfold py_upper in Hin. apply in_flat_map in Hin as [c [Hc Hu]].
  apply (upper_cp_no_comma f c Hf); [intro; subst; contradiction | exact Hu].
Qed.

Lemma split_no_comma v : ~ In comma v -> py_split_comma v = [v].
Proof.
  induction v as [|c v IH]; intro Hv; simpl; [reflexivity|].
  rewrite IH by (intro; apply Hv; right; assumption).
  destruct ((c =? comma)%N) eqn:Hc; [|reflexivity].
  apply N.eqb_eq in Hc. subst. exfalso. apply Hv. left. reflexivity.
Qed.

Lemma split_app_comma v r : ~ In comma v ->
  py_split_comma (v ++ comma :: r) = v :: py_split_comma r.
Proof.
  induction v as [|c v IH]; intro Hv; simpl.
  - reflexivity.
  - rewrite IH by (intro; apply Hv; right; assumption).
    destruct ((c =? comma)%N) eqn:Hc; [|reflexivity].
    apply N.eqb_eq in Hc. subst. exfalso. apply Hv. left. reflexivity.
Qed.

(** When no symbol holds a comma (and Unicode's uppercase mapping writes no
    comma, as it does not), splitting the output of
    [InstitutionalOwnershipData.upper_symbol] on a non-empty list at ","
    gives back one field per symbol, the uppercased symbols in order:
    symbols that become equal are kept, not merged. *)
Theorem data_upper_symbol_split_round_trip :
  forall (f : N -> list N),
    (forall d, (128 <= d)%N -> ~ In comma (f d)) ->
    forall l : list pystr, l <> [] -> Forall (fun v => ~ In comma v) l ->
    py_split_comma (data_upper_symbol f (SymList l)) = map (py_upper f) l.
Proof.
  intros f Hf l Hl Hc. simpl.
  induction l as [|x [|y l] IH]; [contradiction| |].
  - inversion Hc; subst. simpl. apply split_no_comma, py_upper_no_comma; auto.
  - inversion Hc as [|? ? Hx Hrest]; subst.
    change (py_join [comma] (map (py_upper f) (x :: y :: l)))
      with (py_upper f x ++ comma :: py_join [comma] (map (py_upper f) (y :: l))).
    rewrite split_app_comma by (apply py_upper_no_comma; auto).
    rewrite IH by (discriminate || exact Hrest). reflexivity.
Qed.

Lemma upper_cp_ascii f c : (c < 128)%N ->
  upper_cp f c = [if (97 <=? c)%N && (c <=? 122)%N then (c - 32)%N else c].
Proof.
  intro Hc. unfold upper_cp.
  destruct ((97 <=? c)%N && (c <=? 122)%N); [reflexivity|].
  replace ((c <? 128)%N) with true by (symmetry; apply N.ltb_lt; exact Hc). reflexivity.
Qed.

Ltac leb_facts :=
  repeat match goal with
  | H : (_ <=? _)%N = true |- _ => apply N.leb_le in H
  | H : (_ <=? _)%N = false |- _ => apply N.leb_gt in H
  end.

Lemma upper_ascii_char_props c : (c < 128)%N ->
  (upper_ascii_char c < 128)%N /\ ~ (97 <= upper_ascii_char c <= 122)%N /\
  upper_ascii_char (upper_ascii_char c) = upper_ascii_char c.
Proof.
  intro Hc. unfold upper_ascii_char.
  destruct ((97 <=? c)%N) eqn:H1, ((c <=? 122)%N) eqn:H2; simpl;
    [destruct ((97 <=? c - 32)%N) eqn:H3, ((c - 32 <=? 122)%N) eqn:H4 | | |]; simpl;
    rewrite ?H1, ?H2; simpl; leb_facts; lia.
Qed.

Lemma py_upper_ascii f v : Forall (fun c => (c < 128)%N) v ->
  py_upper f v = map upper_ascii_char v.
Proof.
  induction 1 as [|c v Hc Hv IH]; [reflexivity|].
  unfold py_upper in *. simpl. rewrite upper_cp_ascii by exact Hc. simpl.
  rewrite IH. reflexivity.
Qed.

(** On an ASCII symbol, [InstitutionalOwnershipQueryParams.upper_symbol]
    keeps the length, leaves no letter [a]..[z], stays ASCII, and is
    idempotent: validating an already validated symbol changes nothing. *)
Theorem query_upper_symbol_ascii :
  forall (f : N -> list N) (v : pystr),
    Forall (fun c => (c < 128)%N) v ->
    let u := query_upper_symbol f v in
    query_upper_symbol f u = u /\
    length u = length v /\
    Forall (fun c => (c < 128)%N /\ ~ (97 <= c <= 122)%N) u.
Proof.
  intros f v Hv. cbv zeta. unfold query_upper_symbol.
  rewrite (py_upper_ascii f v Hv).
  assert (Hu : Forall (fun c => (c < 128)%N /\ ~ (97 <= c <= 122)%N) (map upper_ascii_char v)).
  { apply Forall_map. eapply Forall_impl; [|exact Hv].
    intros c Hc. destruct (upper_ascii_char_props c Hc) as [A [B _]]. auto. }
  split; [|split; [apply length_map | exact Hu]].
  rewrite py_upper_ascii.
  - rewrite map_map. apply map_ext_Forall. eapply Forall_impl; [|exact Hv].
    intros c Hc. apply upper_ascii_char_props, Hc.
  - eapply Forall_impl; [|exact Hu]. intros c [A _]. exact A.
Qed.

Lemma data_upper_symbol_split_round_trip_witness :
  py_split_comma (data_upper_symbol ascii_only_upper (SymList [sym_aapl; sym_msft])) =
    map (py_upper ascii_only_upper) [sym_aapl; sym_msft].
Proof.
  refine (data_upper_symbol_split_round_trip ascii_only_upper _ [sym_aapl; sym_msft] _ _).
  - intros d Hd [H|[]]. unfold comma in H. lia.
  - discriminate.
  - repeat constructor; simpl; unfold comma; intuition lia.
Defined.

Lemma query_upper_symbol_ascii_witness :
  let u := query_upper_symbol ascii_only_upper sym_aapl in
  query_upper_symbol ascii_only_upper u = u /\
  length u = length sym_aapl /\
  Forall (fun c => (c < 128)%N /\ ~ (97 <= c <= 122)%N) u.
Proof.
  refine (query_upper_symbol_ascii ascii_only_upper sym_aapl _).
  repeat constructor; unfold sym_aapl; lia.
Defined.

End InstitutionalOwnershipProofs.
